(** * OSC99 — [OscCommon.h]: layout of the OSC argument unions

    [OscCommon.h] contains no executable statement: it is a set of type
    declarations whose whole content is *where each byte of an OSC argument
    lives*.  The development therefore embeds

    - the build configuration the header branches on (the macro
      [LITTLE_ENDIAN_PLATFORM], the constant [DBL_MANT_DIG] of [<float.h>]) and
      the facts of the C implementation the declarations depend on (byte order
      of the scalars, widths of [double] and [long double]);
    - the declarations themselves, as terms of a small type language, with
      [sizeof] and [offsetof] computed from them;
    - a union object as the bytes it occupies, and each member as a load or a
      store at the offset the declaration gives;
    - the operations the header only declares or leaves to its users
      (encoding to wire bytes, the test for the immediate time tag, the
      classification of packet contents), modelled from the specification on
      top of these layouts.

    Bytes are [Init.Byte.byte]; multi-byte integers are [Z], split and combined
    with coqutil's [le_split] / [le_combine]. *)

From Stdlib Require Import ZArith String List Bool Lia PeanoNat.
From coqutil Require Import Byte Word.LittleEndianList.
Import ListNotations.

Local Open Scope string_scope.
Local Open Scope list_scope.
Local Open Scope nat_scope.
Local Set Warnings "-register-all".

(* ===================================================================== *)
(** * The C types the header uses *)
(* ===================================================================== *)

(** Scalar types, [PACK(struct { ... })] and [union { ... }].  Every struct of
    the header is wrapped in [PACK], so packed structs are the only ones. *)
Inductive ctype : Type :=
| Tchar
| Tint32_t
| Tuint32_t
| Tuint64_t
| Tfloat
| Tdouble
| Tlong_double
| Tpacked_struct (fields : list (string * ctype))
| Tunion (members : list (string * ctype)).

(* ===================================================================== *)
(** * Platform and build configuration *)
(* ===================================================================== *)

(** What the header reads from its environment.

    - [LITTLE_ENDIAN_PLATFORM]: whether the macro of line 26 is defined.  The
      header ships with it defined and asks to comment it out on a big-endian
      target.
    - [host_little_endian]: the byte order in which the C implementation
      stores its multi-byte scalars.
    - [DBL_MANT_DIG]: the constant of [<float.h>] tested on line 171.
    - [sizeof_double], [sizeof_long_double]: widths of the two candidates for
      [Double64], in bytes. *)
Record Platform : Type := {
  LITTLE_ENDIAN_PLATFORM : bool;
  host_little_endian : bool;
  DBL_MANT_DIG : Z;
  sizeof_double : nat;
  sizeof_long_double : nat
}.

(** The header is configured as its comment on line 22 asks: the macro is
    defined exactly on a little-endian host. *)
Definition configured (p : Platform) : Prop :=
  LITTLE_ENDIAN_PLATFORM p = host_little_endian p.

(** ** Sizes and offsets *)

Definition sizeof_scalar (p : Platform) (t : ctype) : nat :=
  match t with
  | Tchar => 1
  | Tint32_t => 4
  | Tuint32_t => 4
  | Tuint64_t => 8
  | Tfloat => 4            (* IEEE-754 binary32; the header names it float32 *)
  | Tdouble => sizeof_double p
  | Tlong_double => sizeof_long_double p
  | _ => 0
  end.

(** A packed struct is the sum of its fields, with no padding between or
    after them; a union is as large as its largest member.  C further rounds
    a union up to its alignment, which is left out here: what is computed is
    the exact size when the largest member's size is a multiple of the
    union's alignment, and a lower bound of it otherwise.  A packed struct has
    alignment 1 and the alignment of a scalar divides its size, so the size is
    exact when the members of a union all have the size of the largest, which
    is the case the fixed-size results below are about. *)
Fixpoint sizeof (p : Platform) (t : ctype) : nat :=
  match t with
  | Tpacked_struct fs =>
      (fix fields (l : list (string * ctype)) : nat :=
         match l with
         | [] => 0
         | (_, ft) :: l' => sizeof p ft + fields l'
         end) fs
  | Tunion ms =>
      (fix members (l : list (string * ctype)) : nat :=
         match l with
         | [] => 0
         | (_, mt) :: l' => Nat.max (sizeof p mt) (members l')
         end) ms
  | _ => sizeof_scalar p t
  end.

(** Offset of a field in a packed struct: the sizes of the fields declared
    before it. *)
Fixpoint field_offset (p : Platform) (fs : list (string * ctype))
         (name : string) : option nat :=
  match fs with
  | [] => None
  | (f, ft) :: fs' =>
      if String.eqb f name then Some 0
      else option_map (Nat.add (sizeof p ft)) (field_offset p fs' name)
  end.

(** [offsetof(t, name)].  Every member of a union is at offset 0.  The
    accessors below only name declared fields (anything else does not
    compile), where the default is not reached. *)
Definition offsetof (p : Platform) (t : ctype) (name : string) : nat :=
  match t with
  | Tpacked_struct fs =>
      match field_offset p fs name with Some o => o | None => 0 end
  | _ => 0
  end.

(** The members of a union, in declaration order. *)
Definition members (t : ctype) : list (string * ctype) :=
  match t with
  | Tunion ms => ms
  | _ => []
  end.

(** A struct all of whose fields are [char]. *)
Definition chars (names : list string) : ctype :=
  Tpacked_struct (map (fun n => (n, Tchar)) names).

(* ===================================================================== *)
(** * The declarations of [OscCommon.h] *)
(* ===================================================================== *)

(** Lines 57-71. *)
Definition RgbaColour_decl (p : Platform) : ctype :=
  if LITTLE_ENDIAN_PLATFORM p
  then chars ["alpha"; "blue"; "green"; "red"]
  else chars ["red"; "green"; "blue"; "alpha"].

(** Lines 78-92. *)
Definition MidiMessage_decl (p : Platform) : ctype :=
  if LITTLE_ENDIAN_PLATFORM p
  then chars ["data2"; "data1"; "status"; "portID"]
  else chars ["portID"; "status"; "data1"; "data2"].

(** Lines 104-120: the [byteStruct] member of [OscArgument32]. *)
Definition byteStruct32_decl (p : Platform) : ctype :=
  if LITTLE_ENDIAN_PLATFORM p
  then chars ["byte0"; "byte1"; "byte2"; "byte3"]
  else chars ["byte3"; "byte2"; "byte1"; "byte0"].

(** Lines 98-122. *)
Definition OscArgument32_decl (p : Platform) : ctype :=
  Tunion [ ("int32", Tint32_t);
           ("float32", Tfloat);
           ("rgbaColour", RgbaColour_decl p);
           ("midiMessage", MidiMessage_decl p);
           ("byteStruct", byteStruct32_decl p) ].

(** Lines 133-137: the [dwordStruct] member of [OscTimeTag].  It is declared
    once, outside any [#ifdef]. *)
Definition dwordStruct_decl : ctype :=
  Tpacked_struct [ ("fraction", Tuint32_t); ("seconds", Tuint32_t) ].

(** Lines 139-163 and 186-210: the [byteStruct] member of [OscTimeTag] and of
    [OscArgument64] (the two declarations are the same text). *)
Definition byteStruct64_decl (p : Platform) : ctype :=
  if LITTLE_ENDIAN_PLATFORM p
  then chars ["byte0"; "byte1"; "byte2"; "byte3";
              "byte4"; "byte5"; "byte6"; "byte7"]
  else chars ["byte7"; "byte6"; "byte5"; "byte4";
              "byte3"; "byte2"; "byte1"; "byte0"].

(** Lines 130-165. *)
Definition OscTimeTag_decl (p : Platform) : ctype :=
  Tunion [ ("value", Tuint64_t);
           ("dwordStruct", dwordStruct_decl);
           ("byteStruct", byteStruct64_decl p) ].

(** Lines 171-175: [double] when its mantissa has 53 digits, [long double]
    otherwise.  There is no [#error] branch. *)
Definition Double64 (p : Platform) : ctype :=
  if (DBL_MANT_DIG p =? 53)%Z then Tdouble else Tlong_double.

(** Lines 181-211. *)
Definition OscArgument64_decl (p : Platform) : ctype :=
  Tunion [ ("int64", Tuint64_t);
           ("oscTimeTag", OscTimeTag_decl p);
           ("double64", Double64 p);
           ("byteStruct", byteStruct64_decl p) ].

(* ===================================================================== *)
(** * Objects in memory *)
(* ===================================================================== *)

(** An object is the bytes it occupies, lowest address first. *)
Definition object : Type := list byte.

(** A [char] member at offset [off]. *)
Definition load_char (m : object) (off : nat) : byte := nth off m Byte.x00.

(** Assigning a [char] member replaces one byte and leaves the others. *)
Fixpoint store_char (m : object) (off : nat) (b : byte) : object :=
  match m, off with
  | [], _ => []
  | _ :: m', O => b :: m'
  | a :: m', S off' => a :: store_char m' off' b
  end.

Definition load_bytes (m : object) (off n : nat) : list byte :=
  firstn n (skipn off m).

Fixpoint store_bytes (m : object) (off : nat) (bs : list byte) : object :=
  match bs with
  | [] => m
  | b :: bs' => store_bytes (store_char m off b) (S off) bs'
  end.

(** Object representation of an [n]-byte scalar whose bit pattern is [z]:
    least-significant byte at the lowest address on a little-endian host, at
    the highest on a big-endian one. *)
Definition host_split (p : Platform) (n : nat) (z : Z) : list byte :=
  if host_little_endian p then le_split n z else rev (le_split n z).

Definition host_combine (p : Platform) (bs : list byte) : Z :=
  if host_little_endian p then le_combine bs else le_combine (rev bs).

(** An unsigned scalar of [n] bytes at offset [off]. *)
Definition load_uint (p : Platform) (m : object) (off n : nat) : Z :=
  host_combine p (load_bytes m off n).

Definition store_uint (p : Platform) (m : object) (off n : nat) (z : Z) : object :=
  store_bytes m off (host_split p n z).

(** Two's complement reading of a [w]-bit pattern. *)
Definition signed (w : Z) (z : Z) : Z :=
  ((z + 2 ^ (w - 1)) mod 2 ^ w - 2 ^ (w - 1))%Z.

(** A [char] field [name] of the struct member declared as [decl]. *)
Definition get_field (p : Platform) (decl : ctype) (name : string)
           (u : object) : byte :=
  load_char u (offsetof p decl name).

Definition set_field (p : Platform) (decl : ctype) (name : string)
           (u : object) (b : byte) : object :=
  store_char u (offsetof p decl name) b.

(** A zero-initialised object of type [t]. *)
Definition zeroed (p : Platform) (t : ctype) : object :=
  repeat Byte.x00 (sizeof p t).

(* ===================================================================== *)
(** * [OscArgument32] and its members *)
(* ===================================================================== *)

Record RgbaColour : Type := {
  red : byte; green : byte; blue : byte; alpha : byte
}.

Record MidiMessage : Type := {
  portID : byte; status : byte; data1 : byte; data2 : byte
}.

Module OscArgument32.

(** [u.int32] *)
Definition int32 (p : Platform) (u : object) : Z :=
  signed 32 (load_uint p u 0 4).
Definition set_int32 (p : Platform) (u : object) (v : Z) : object :=
  store_uint p u 0 4 v.

(** [u.float32], as the IEEE-754 binary32 bit pattern of the value. *)
Definition float32 (p : Platform) (u : object) : Z :=
  load_uint p u 0 4.
Definition set_float32 (p : Platform) (u : object) (bits : Z) : object :=
  store_uint p u 0 4 bits.

(** [u.rgbaColour] *)
Definition rgbaColour (p : Platform) (u : object) : RgbaColour :=
  let f := fun name => get_field p (RgbaColour_decl p) name u in
  {| red := f "red"; green := f "green"; blue := f "blue"; alpha := f "alpha" |}.
Definition set_rgbaColour (p : Platform) (u : object) (c : RgbaColour) : object :=
  let s := set_field p (RgbaColour_decl p) in
  s "alpha" (s "blue" (s "green" (s "red" u (red c)) (green c)) (blue c)) (alpha c).

(** [u.midiMessage] *)
Definition midiMessage (p : Platform) (u : object) : MidiMessage :=
  let f := fun name => get_field p (MidiMessage_decl p) name u in
  {| portID := f "portID"; status := f "status";
     data1 := f "data1"; data2 := f "data2" |}.
Definition set_midiMessage (p : Platform) (u : object) (m : MidiMessage) : object :=
  let s := set_field p (MidiMessage_decl p) in
  s "data2" (s "data1" (s "status" (s "portID" u (portID m)) (status m)) (data1 m))
    (data2 m).

(** [u.byteStruct.byteN] *)
Definition byteStruct (p : Platform) (name : string) (u : object) : byte :=
  get_field p (byteStruct32_decl p) name u.
Definition set_byteStruct (p : Platform) (name : string) (u : object)
           (b : byte) : object :=
  set_field p (byteStruct32_decl p) name u b.

End OscArgument32.

(* ===================================================================== *)
(** * [OscTimeTag], [OscArgument64] and their members *)
(* ===================================================================== *)

Module OscTimeTag.

(** [t.value] *)
Definition value (p : Platform) (t : object) : Z := load_uint p t 0 8.
Definition set_value (p : Platform) (t : object) (v : Z) : object :=
  store_uint p t 0 8 v.

(** [t.dwordStruct.seconds], [t.dwordStruct.fraction] *)
Definition seconds (p : Platform) (t : object) : Z :=
  load_uint p t (offsetof p dwordStruct_decl "seconds") 4.
Definition fraction (p : Platform) (t : object) : Z :=
  load_uint p t (offsetof p dwordStruct_decl "fraction") 4.
Definition set_seconds (p : Platform) (t : object) (v : Z) : object :=
  store_uint p t (offsetof p dwordStruct_decl "seconds") 4 v.
Definition set_fraction (p : Platform) (t : object) (v : Z) : object :=
  store_uint p t (offsetof p dwordStruct_decl "fraction") 4 v.

(** [t.byteStruct.byteN] *)
Definition byteStruct (p : Platform) (name : string) (t : object) : byte :=
  get_field p (byteStruct64_decl p) name t.
Definition set_byteStruct (p : Platform) (name : string) (t : object)
           (b : byte) : object :=
  set_field p (byteStruct64_decl p) name t b.

(** The tag whose [dwordStruct] holds [s] seconds and [f] fraction. *)
Definition make (p : Platform) (s f : Z) : object :=
  set_fraction p (set_seconds p (zeroed p (OscTimeTag_decl p)) s) f.

End OscTimeTag.

Module OscArgument64.

(** [u.int64] (declared [uint64_t]) *)
Definition int64 (p : Platform) (u : object) : Z := load_uint p u 0 8.
Definition set_int64 (p : Platform) (u : object) (v : Z) : object :=
  store_uint p u 0 8 v.

(** [u.oscTimeTag.dwordStruct.seconds], [u.oscTimeTag.dwordStruct.fraction]:
    the [oscTimeTag] member is at offset 0 of the union. *)
Definition seconds := OscTimeTag.seconds.
Definition fraction := OscTimeTag.fraction.
Definition set_seconds := OscTimeTag.set_seconds.
Definition set_fraction := OscTimeTag.set_fraction.

(** [u.double64], as the bit pattern of the value; it is as wide as
    [Double64] is on the platform. *)
Definition double64 (p : Platform) (u : object) : Z :=
  load_uint p u 0 (sizeof p (Double64 p)).
Definition set_double64 (p : Platform) (u : object) (bits : Z) : object :=
  store_uint p u 0 (sizeof p (Double64 p)) bits.

(** [u.byteStruct.byteN] *)
Definition byteStruct (p : Platform) (name : string) (u : object) : byte :=
  get_field p (byteStruct64_decl p) name u.
Definition set_byteStruct (p : Platform) (name : string) (u : object)
           (b : byte) : object :=
  set_field p (byteStruct64_decl p) name u b.

End OscArgument64.

(* ===================================================================== *)
(** * Concrete platforms *)
(* ===================================================================== *)

(** The header as shipped, on x86-64. *)
Definition x86_64 : Platform :=
  {| LITTLE_ENDIAN_PLATFORM := true; host_little_endian := true;
     DBL_MANT_DIG := 53; sizeof_double := 8; sizeof_long_double := 16 |}.

(** A big-endian target, with the macro commented out as line 22 asks. *)
Definition big_endian_target : Platform :=
  {| LITTLE_ENDIAN_PLATFORM := false; host_little_endian := false;
     DBL_MANT_DIG := 53; sizeof_double := 8; sizeof_long_double := 16 |}.

(** avr-gcc (Arduino, Atmel AVR, named on line 23): [double] and
    [long double] are both 32-bit. *)
Definition avr : Platform :=
  {| LITTLE_ENDIAN_PLATFORM := true; host_little_endian := true;
     DBL_MANT_DIG := 24; sizeof_double := 4; sizeof_long_double := 4 |}.

(** x86-64 compiled with a 32-bit [double] (gcc's [-fshort-double]):
    [long double] keeps its 16 bytes. *)
Definition x86_64_short_double : Platform :=
  {| LITTLE_ENDIAN_PLATFORM := true; host_little_endian := true;
     DBL_MANT_DIG := 24; sizeof_double := 4; sizeof_long_double := 16 |}.


(** Two objects to evaluate the members on. *)
Definition sample32 : object := [Byte.x12; Byte.x34; Byte.x56; Byte.x78].
Definition sample64 : object :=
  [Byte.x01; Byte.x02; Byte.x03; Byte.x04;
   Byte.x05; Byte.x06; Byte.x07; Byte.x08].

(* ===================================================================== *)
(** * The scalar codec *)
(* ===================================================================== *)

(** [encode32], [decode32], [encode64] and [decode64] are not in
    [OscCommon.h], which only declares the unions they work on.  This section
    models them from the spec (4.1), over the layouts of the header: the value
    is assigned to its member of the union and the wire bytes are the fields
    of [byteStruct], most-significant first; decoding assigns the wire bytes
    to those fields and reads the member. *)


(** Modelled from the spec: the "value" argument of encode32.  A [float32] is
    given by its IEEE-754 bit pattern. *)
Inductive value32 : Type :=
| V_int32 (v : Z)
| V_float32 (bits : Z)
| V_RgbaColour (c : RgbaColour)
| V_MidiMessage (m : MidiMessage).


(** Modelled from the spec: "TimeTag{seconds:uint32, fraction:uint32}". *)
Record TimeTag : Type := { seconds : Z; fraction : Z }.

(** Modelled from the spec: the types of the 64-bit slot, "uint64, TimeTag,
    and double64". *)
Inductive type64 : Type := Ty_uint64 | Ty_TimeTag | Ty_double64.

(** Modelled from the spec: the values of the 64-bit slot.  A [double64] is
    given by its IEEE-754 bit pattern. *)
Inductive value64 : Type :=
| V_uint64 (v : Z)
| V_TimeTag (t : TimeTag)
| V_double64 (bits : Z).




(** Modelled from the spec: assigning a value to the member of its type
    ("the chosen view's native representation"). *)
Definition store32 (p : Platform) (u : object) (v : value32) : object :=
  match v with
  | V_int32 z => OscArgument32.set_int32 p u z
  | V_float32 bits => OscArgument32.set_float32 p u bits
  | V_RgbaColour c => OscArgument32.set_rgbaColour p u c
  | V_MidiMessage m => OscArgument32.set_midiMessage p u m
  end.


(** Modelled from the spec: [store32] at 64 bits.  A time tag is assigned
    through [oscTimeTag.dwordStruct]. *)
Definition store64 (p : Platform) (u : object) (v : value64) : object :=
  match v with
  | V_uint64 z => OscArgument64.set_int64 p u z
  | V_TimeTag t =>
      OscArgument64.set_fraction p
        (OscArgument64.set_seconds p u (seconds t)) (fraction t)
  | V_double64 bits => OscArgument64.set_double64 p u bits
  end.

(** Modelled from the spec: [load32] at 64 bits. *)
Definition load64 (p : Platform) (ty : type64) (u : object) : value64 :=
  match ty with
  | Ty_uint64 => V_uint64 (OscArgument64.int64 p u)
  | Ty_TimeTag =>
      V_TimeTag {| seconds := OscArgument64.seconds p u;
                   fraction := OscArgument64.fraction p u |}
  | Ty_double64 => V_double64 (OscArgument64.double64 p u)
  end.

(** The [byteStruct] fields from the one commented MSB to the one commented
    LSB. *)
Definition msb_first32 : list string := ["byte3"; "byte2"; "byte1"; "byte0"].
Definition msb_first64 : list string :=
  ["byte7"; "byte6"; "byte5"; "byte4"; "byte3"; "byte2"; "byte1"; "byte0"].

(** Modelled from the spec: the wire bytes of a 32-bit slot, "such that
    byte[0] is most-significant". *)
Definition wire32 (p : Platform) (u : object) : list byte :=
  map (fun name => OscArgument32.byteStruct p name u) msb_first32.


(** Modelled from the spec: encode32 "maps the chosen view's native
    representation to 4 wire bytes such that byte[0] is most-significant". *)
Definition encode32 (p : Platform) (v : value32) : list byte :=
  wire32 p (store32 p (zeroed p (OscArgument32_decl p)) v).


(** Modelled from the spec: the wire bytes of a 64-bit slot. *)
Definition wire64 (p : Platform) (u : object) : list byte :=
  map (fun name => OscArgument64.byteStruct p name u) msb_first64.

(** Modelled from the spec: the 64-bit slot that has the given wire bytes. *)
Definition unwire64 (p : Platform) (w : list byte) : object :=
  fold_left (fun u nb => OscArgument64.set_byteStruct p (fst nb) u (snd nb))
            (combine msb_first64 w) (zeroed p (OscArgument64_decl p)).

(** Modelled from the spec: encode64, the "same contract at 8 bytes". *)
Definition encode64 (p : Platform) (v : value64) : list byte :=
  wire64 p (store64 p (zeroed p (OscArgument64_decl p)) v).

(** Modelled from the spec: decode64. *)
Definition decode64 (p : Platform) (w : list byte) (ty : type64) : value64 :=
  load64 p ty (unwire64 p w).

(** The [n]-byte big-endian encoding of an unsigned integer. *)
Definition be_split (n : nat) (z : Z) : list byte := rev (le_split n z).

(** Modelled from the spec: [oscTimeTagZero] is declared [extern] on line 216
    and defined in a file that is not part of the sources.  The spec (3): "A
    reserved all-zero value (immediate) is a distinguished constant". *)
Definition oscTimeTagZero (p : Platform) : object := zeroed p (OscTimeTag_decl p).

(** Modelled from the spec: [isImmediateTimeTag] is not in [OscCommon.h].
    The spec (4.1): "true iff all 8 bytes are zero". *)
Definition isImmediateTimeTag (tag : object) : bool :=
  forallb (fun b => Byte.eqb b Byte.x00) tag.

(** Modelled from the spec: [OscContentsIsMessage] and [OscContentsIsBundle]
    are only declared (lines 221-222); their bodies are in a file that is not
    part of the sources.  The spec (8): isMessage "is true iff bytes[0] ==
    0x2F", isBundle "is true iff the first 7 bytes equal the ASCII string
    #bundle", and a buffer shorter than the prefix is "treated as
    non-matching". *)
Definition OscContentsIsMessage (oscContents : list byte) : bool :=
  match oscContents with
  | b :: _ => Byte.eqb b Byte.x2f
  | [] => false
  end.

(** [bytes] starts with [prefix]; false when [bytes] is the shorter. *)
Fixpoint has_prefix (prefix bytes : list byte) : bool :=
  match prefix, bytes with
  | [], _ => true
  | _ :: _, [] => false
  | c :: prefix', b :: bytes' => Byte.eqb c b && has_prefix prefix' bytes'
  end.

Definition bundle_prefix : list byte := list_byte_of_string "#bundle".

(** Modelled from the spec: see [OscContentsIsMessage]. *)
Definition OscContentsIsBundle (oscContents : list byte) : bool :=
  has_prefix bundle_prefix oscContents.

(** ** The guard on the width of [double] *)

(** What preprocessing a width guard can result in: either [Double64] is
    defined, or the build stops with a message. *)
Inductive build : Type :=
| Defined_as (t : ctype)
| Build_error (message : string).

(** Lines 171-175.  Both branches of the [#if] are a [typedef]. *)
Definition configure_Double64 (p : Platform) : build :=
  if (DBL_MANT_DIG p =? 53)%Z then Defined_as Tdouble else Defined_as Tlong_double.

(* ===================================================================== *)
(** * Definitions for the further properties *)
(* ===================================================================== *)

(** A big-endian host on which the macro of line 26 was left defined. *)
Definition big_endian_macro_left_defined : Platform :=
  {| LITTLE_ENDIAN_PLATFORM := true; host_little_endian := false;
     DBL_MANT_DIG := 53; sizeof_double := 8; sizeof_long_double := 16 |}.

(** The value of the bytes [bs] read as one unsigned integer, the first byte
    being the most significant. *)
Fixpoint be_value (bs : list byte) : Z :=
  match bs with
  | [] => 0
  | b :: bs' => (byte.unsigned b * 2 ^ (8 * Z.of_nat (length bs')) + be_value bs')%Z
  end.

(* ===================================================================== *)
(** * Memory and byte-order lemmas *)
(* ===================================================================== *)

Section ByteOrder.

Local Open Scope Z_scope.

Lemma le_split_4 (z : Z) :
  le_split 4 z =
  [byte.of_Z z; byte.of_Z (Z.shiftr z 8);
   byte.of_Z (Z.shiftr z 16); byte.of_Z (Z.shiftr z 24)].
Proof.
  unfold le_split. rewrite !Z.shiftr_shiftr by lia. reflexivity.
Qed.

Lemma le_split_8 (z : Z) :
  le_split 8 z =
  [byte.of_Z z; byte.of_Z (Z.shiftr z 8);
   byte.of_Z (Z.shiftr z 16); byte.of_Z (Z.shiftr z 24);
   byte.of_Z (Z.shiftr z 32); byte.of_Z (Z.shiftr z 40);
   byte.of_Z (Z.shiftr z 48); byte.of_Z (Z.shiftr z 56)].
Proof.
  unfold le_split. rewrite !Z.shiftr_shiftr by lia. reflexivity.
Qed.

Lemma length_host_split (p : Platform) (n : nat) (z : Z) :
  length (host_split p n z) = n.
Proof.
  unfold host_split. destruct (host_little_endian p);
    rewrite ?length_rev; apply length_le_split.
Qed.

(** Reading back what was written gives the pattern, cut to the width. *)
Lemma host_combine_split (p : Platform) (n : nat) (z : Z) :
  host_combine p (host_split p n z) = z mod 2 ^ (Z.of_nat n * 8).
Proof.
  unfold host_combine, host_split. destruct (host_little_endian p);
    rewrite ?rev_involutive; apply le_combine_split.
Qed.


End ByteOrder.

Section Memory.

Lemma length_store_char (m : object) (off : nat) (b : byte) :
  length (store_char m off b) = length m.
Proof.
  revert off. induction m as [|a m IH]; intros [|off]; simpl; auto.
Qed.

Lemma length_store_bytes (bs : list byte) (m : object) (off : nat) :
  length (store_bytes m off bs) = length m.
Proof.
  revert m off. induction bs as [|b bs IH]; intros m off; simpl; auto.
  rewrite IH. apply length_store_char.
Qed.

(** Storing [bs] at [off] rewrites exactly the bytes [off .. off + |bs|). *)
Lemma store_bytes_app (bs : list byte) (pre old post : list byte) :
  length old = length bs ->
  store_bytes (pre ++ old ++ post) (length pre) bs = pre ++ bs ++ post.
Proof.
  revert pre old. induction bs as [|b bs IH]; intros pre [|a old] H;
    simpl in H; try discriminate; auto.
  simpl store_bytes.
  assert (E : store_char (pre ++ a :: old ++ post) (length pre) b
              = (pre ++ [b]) ++ old ++ post).
  { clear. induction pre as [|x pre IHp]; simpl; [reflexivity|].
    f_equal. exact IHp. }
  simpl app at 2. rewrite E.
  replace (S (length pre)) with (length (pre ++ [b]))
    by (rewrite length_app; simpl; lia).
  rewrite IH by lia. rewrite <- app_assoc. reflexivity.
Qed.

Lemma load_bytes_app (bs pre post : list byte) :
  load_bytes (pre ++ bs ++ post) (length pre) (length bs) = bs.
Proof.
  unfold load_bytes. rewrite skipn_app, skipn_all, Nat.sub_diag. simpl.
  rewrite firstn_app, firstn_all, Nat.sub_diag. simpl. apply app_nil_r.
Qed.

(** Every in-range window of an object can be split off. *)
Lemma object_window (m : object) (off n : nat) :
  off + n <= length m ->
  exists pre old post,
    m = pre ++ old ++ post /\ length pre = off /\ length old = n.
Proof.
  intros H. exists (firstn off m), (firstn n (skipn off m)), (skipn n (skipn off m)).
  rewrite !firstn_skipn. repeat split.
  - rewrite length_firstn. lia.
  - rewrite length_firstn, length_skipn. lia.
Qed.

Lemma load_store_bytes (m : object) (off : nat) (bs : list byte) :
  off + length bs <= length m ->
  load_bytes (store_bytes m off bs) off (length bs) = bs.
Proof.
  intros H. destruct (object_window m off (length bs) H)
    as (pre & old & post & -> & <- & Hold).
  rewrite store_bytes_app by exact Hold. apply load_bytes_app.
Qed.

Lemma load_store_uint (p : Platform) (m : object) (off n : nat) (z : Z) :
  off + n <= length m ->
  load_uint p (store_uint p m off n z) off n = (z mod 2 ^ (Z.of_nat n * 8))%Z.
Proof.
  intros H. unfold load_uint, store_uint.
  rewrite <- (length_host_split p n z) at 2.
  rewrite load_store_bytes by (rewrite length_host_split; exact H).
  apply host_combine_split.
Qed.

End Memory.

(** Case analysis on the macro and on the byte order of the host; the two
    cases in which they disagree contradict [configured p]. *)
Ltac by_platform p :=
  destruct p as [[] [] ? ? ?];
  unfold configured; cbn [LITTLE_ENDIAN_PLATFORM host_little_endian];
  try discriminate.

(* ===================================================================== *)
(** * Sizes of the declared types *)
(* ===================================================================== *)

Section Sizes.

Variable p : Platform.

Lemma sizeof_RgbaColour : sizeof p (RgbaColour_decl p) = 4.
Proof. unfold RgbaColour_decl. destruct (LITTLE_ENDIAN_PLATFORM p); reflexivity. Qed.

Lemma sizeof_MidiMessage : sizeof p (MidiMessage_decl p) = 4.
Proof. unfold MidiMessage_decl. destruct (LITTLE_ENDIAN_PLATFORM p); reflexivity. Qed.

Lemma sizeof_byteStruct32 : sizeof p (byteStruct32_decl p) = 4.
Proof. unfold byteStruct32_decl. destruct (LITTLE_ENDIAN_PLATFORM p); reflexivity. Qed.

Lemma sizeof_byteStruct64 : sizeof p (byteStruct64_decl p) = 8.
Proof. unfold byteStruct64_decl. destruct (LITTLE_ENDIAN_PLATFORM p); reflexivity. Qed.

Lemma sizeof_OscArgument32 : sizeof p (OscArgument32_decl p) = 4.
Proof.
  unfold OscArgument32_decl. cbn [sizeof].
  rewrite sizeof_RgbaColour, sizeof_MidiMessage, sizeof_byteStruct32.
  reflexivity.
Qed.

Lemma sizeof_OscTimeTag : sizeof p (OscTimeTag_decl p) = 8.
Proof.
  unfold OscTimeTag_decl. cbn [sizeof].
  change (sizeof p dwordStruct_decl) with 8.
  rewrite sizeof_byteStruct64. reflexivity.
Qed.

(** [OscArgument64] is 8 bytes, or as wide as [Double64] if that is more. *)
Lemma sizeof_OscArgument64 :
  sizeof p (OscArgument64_decl p) = Nat.max 8 (sizeof p (Double64 p)).
Proof.
  unfold OscArgument64_decl. cbn [sizeof].
  rewrite sizeof_byteStruct64.
  rewrite sizeof_OscTimeTag. cbn [sizeof_scalar]. lia.
Qed.

End Sizes.

Lemma encode32_int32 (p : Platform) (v : Z) :
  configured p -> encode32 p (V_int32 v) = be_split 4 v.
Proof.
  by_platform p; intros _;
    unfold encode32, be_split, store32, OscArgument32.set_int32, store_uint,
           host_split; cbn [host_little_endian];
    rewrite le_split_4; reflexivity.
Qed.

Lemma encode32_RgbaColour (p : Platform) (c : RgbaColour) :
  encode32 p (V_RgbaColour c) = [red c; green c; blue c; alpha c].
Proof.
  destruct p as [[] ? ? ? ?]; reflexivity.
Qed.

Lemma encode32_MidiMessage (p : Platform) (m : MidiMessage) :
  encode32 p (V_MidiMessage m) = [portID m; status m; data1 m; data2 m].
Proof.
  destruct p as [[] ? ? ? ?]; reflexivity.
Qed.


(** The wire bytes are the object's bytes reversed when the macro is defined
    and copied as they are when it is not. *)
Lemma wire32_reverses_with_macro (p : Platform) (u : object) :
  length u = 4 ->
  wire32 p u = if LITTLE_ENDIAN_PLATFORM p then rev u else u.
Proof.
  destruct u as [|a [|b [|c [|d [|e u]]]]]; try discriminate. intros _.
  destruct p as [[] ? ? ? ?]; reflexivity.
Qed.

Lemma wire64_reverses_with_macro (p : Platform) (u : object) :
  length u = 8 ->
  wire64 p u = if LITTLE_ENDIAN_PLATFORM p then rev u else u.
Proof.
  destruct u as [|b0 [|b1 [|b2 [|b3 [|b4 [|b5 [|b6 [|b7 [|b8 u]]]]]]]]];
    try discriminate.
  intros _. destruct p as [[] ? ? ? ?]; reflexivity.
Qed.

Lemma zeroed_OscArgument32 (p : Platform) :
  zeroed p (OscArgument32_decl p) = repeat Byte.x00 4.
Proof. unfold zeroed. rewrite sizeof_OscArgument32. reflexivity. Qed.

Lemma zeroed_OscTimeTag (p : Platform) :
  zeroed p (OscTimeTag_decl p) = repeat Byte.x00 8.
Proof. unfold zeroed. rewrite sizeof_OscTimeTag. reflexivity. Qed.

(** An [OscArgument64] starts with the 8 bytes its integer members use. *)
Lemma zeroed_OscArgument64 (p : Platform) :
  zeroed p (OscArgument64_decl p) =
  repeat Byte.x00 8 ++ repeat Byte.x00 (sizeof p (OscArgument64_decl p) - 8).
Proof.
  unfold zeroed. rewrite <- repeat_app. f_equal.
  rewrite sizeof_OscArgument64. lia.
Qed.





Lemma dwordStruct_load_store (p : Platform) (u : object) (s f : Z) :
  8 <= length u ->
  let t := OscTimeTag.set_fraction p (OscTimeTag.set_seconds p u s) f in
  OscTimeTag.seconds p t = (s mod 2 ^ 32)%Z /\
  OscTimeTag.fraction p t = (f mod 2 ^ 32)%Z.
Proof.
  intros H.
  destruct u as [|b0 [|b1 [|b2 [|b3 [|b4 [|b5 [|b6 [|b7 u]]]]]]]];
    simpl in H; try lia.
  unfold OscTimeTag.seconds, OscTimeTag.fraction, OscTimeTag.set_seconds,
         OscTimeTag.set_fraction, store_uint, load_uint, host_split,
         host_combine.
  destruct (host_little_endian p); rewrite !le_split_4;
    cbv [offsetof dwordStruct_decl field_offset String.eqb Ascii.eqb Bool.eqb
         option_map sizeof sizeof_scalar Nat.add store_bytes store_char
         load_bytes firstn skipn rev app];
    rewrite <- !le_split_4, !le_combine_split; split; reflexivity.
Qed.







Section Significance.

Local Open Scope Z_scope.

Lemma land_shiftl_low (a b n : Z) :
  0 <= n -> 0 <= a < 2 ^ n -> Z.land a (Z.shiftl b n) = 0.
Proof.
  intros Hn Ha.
  rewrite <- (Z.mod_small a (2 ^ n)) by exact Ha.
  rewrite <- Z.land_ones by exact Hn.
  apply Z.bits_inj'. intros i Hi.
  rewrite !Z.land_spec, Z.bits_0.
  destruct (Z.ltb_spec i n).
  - rewrite Z.shiftl_spec_low by assumption. apply andb_false_r.
  - rewrite Z.ones_spec_high by lia. rewrite andb_false_r. reflexivity.
Qed.

(** Two bit fields that do not overlap add up. *)
Lemma lor_shiftl_add (a b n : Z) :
  0 <= n -> 0 <= a < 2 ^ n -> Z.lor a (Z.shiftl b n) = a + b * 2 ^ n.
Proof.
  intros Hn Ha.
  pose proof (land_shiftl_low a b n Hn Ha) as E.
  rewrite <- Z.lxor_lor by exact E.
  rewrite <- Z.add_nocarry_lxor by exact E.
  rewrite Z.shiftl_mul_pow2 by exact Hn. reflexivity.
Qed.

Lemma signed_mod (w z : Z) : 0 < w -> signed w z mod 2 ^ w = z mod 2 ^ w.
Proof.
  intros Hw. unfold signed.
  rewrite Zminus_mod_idemp_l. f_equal. lia.
Qed.

(** A two's complement integer and its bit pattern have the same bytes. *)
Lemma le_split_signed (z : Z) : le_split 4 (signed 32 z) = le_split 4 z.
Proof.
  rewrite (le_split_mod (signed 32 z)), (le_split_mod z).
  change (Z.of_nat 4 * 8) with 32. rewrite signed_mod by lia. reflexivity.
Qed.

(** On a configured platform the fields [byte3 .. byte0] of the 32-bit
    [byteStruct] are the bytes of the numeric member, most-significant
    first. *)
Lemma wire32_big_endian (p : Platform) (u : object) :
  configured p -> length u = 4%nat ->
  wire32 p u = be_split 4 (load_uint p u 0 4).
Proof.
  intros Hp Hu.
  destruct u as [|b0 [|b1 [|b2 [|b3 [|b4 u]]]]]; try discriminate.
  revert Hp. by_platform p; intros _;
    unfold be_split, load_uint, host_combine;
    cbn [host_little_endian load_bytes skipn firstn rev app];
    rewrite split_le_combine' by reflexivity; reflexivity.
Qed.

Lemma wire64_big_endian (p : Platform) (u : object) :
  configured p -> (8 <= length u)%nat ->
  wire64 p u = be_split 8 (load_uint p u 0 8).
Proof.
  intros Hp Hu.
  destruct u as [|b0 [|b1 [|b2 [|b3 [|b4 [|b5 [|b6 [|b7 u]]]]]]]];
    simpl in Hu; try lia.
  revert Hp. by_platform p; intros _;
    unfold be_split, load_uint, host_combine;
    cbn [host_little_endian load_bytes skipn firstn rev app];
    rewrite split_le_combine' by reflexivity; reflexivity.
Qed.

Lemma be_split_4 (z : Z) :
  be_split 4 z =
  [byte.of_Z (Z.shiftr z 24); byte.of_Z (Z.shiftr z 16);
   byte.of_Z (Z.shiftr z 8); byte.of_Z z].
Proof. unfold be_split. rewrite le_split_4. reflexivity. Qed.

Lemma be_split_8 (z : Z) :
  be_split 8 z =
  [byte.of_Z (Z.shiftr z 56); byte.of_Z (Z.shiftr z 48);
   byte.of_Z (Z.shiftr z 40); byte.of_Z (Z.shiftr z 32);
   byte.of_Z (Z.shiftr z 24); byte.of_Z (Z.shiftr z 16);
   byte.of_Z (Z.shiftr z 8); byte.of_Z z].
Proof. unfold be_split. rewrite le_split_8. reflexivity. Qed.

Lemma wire32_int32 (p : Platform) (u : object) :
  configured p -> length u = 4%nat ->
  wire32 p u = be_split 4 (OscArgument32.int32 p u).
Proof.
  intros Hp Hu. rewrite wire32_big_endian by assumption.
  unfold be_split, OscArgument32.int32. rewrite le_split_signed. reflexivity.
Qed.

End Significance.

Section TimeTagHalves.

Local Open Scope Z_scope.

Lemma OscTimeTag_make_bytes (p : Platform) (s f : Z) :
  OscTimeTag.make p s f = host_split p 4 f ++ host_split p 4 s.
Proof.
  unfold OscTimeTag.make. rewrite zeroed_OscTimeTag.
  unfold OscTimeTag.set_fraction, OscTimeTag.set_seconds, store_uint,
         host_split.
  destruct (host_little_endian p); rewrite !le_split_4; reflexivity.
Qed.

(** With the macro defined on a little-endian host, [seconds] is the high
    half of [value] and comes first on the wire. *)
Lemma OscTimeTag_little_endian (p : Platform) (s f : Z) :
  configured p -> host_little_endian p = true ->
  0 <= s < 2 ^ 32 -> 0 <= f < 2 ^ 32 ->
  encode64 p (V_TimeTag {| seconds := s; fraction := f |})
  = be_split 4 s ++ be_split 4 f /\
  OscTimeTag.value p (OscTimeTag.make p s f) = s * 2 ^ 32 + f.
Proof.
  intros Hp Hh Hs Hf. split.
  - unfold encode64. rewrite zeroed_OscArgument64.
    generalize (repeat Byte.x00 (sizeof p (OscArgument64_decl p) - 8)) as tail.
    intros tail. rewrite !be_split_4.
    revert Hp Hh. by_platform p; intros _ _.
    unfold store64, OscArgument64.set_fraction, OscArgument64.set_seconds,
           OscTimeTag.set_fraction, OscTimeTag.set_seconds, store_uint,
           host_split.
    cbn [host_little_endian seconds fraction]. rewrite !le_split_4.
    reflexivity.
  - rewrite OscTimeTag_make_bytes.
    unfold OscTimeTag.value, load_uint, host_combine, host_split.
    rewrite Hh.
    change (load_bytes (le_split 4 f ++ le_split 4 s) 0 8)
      with (firstn 8 (le_split 4 f ++ le_split 4 s)).
    rewrite firstn_all2 by (rewrite length_app, !length_le_split; lia).
    rewrite le_combine_app, !le_combine_split, length_le_split.
    change (Z.of_nat 4 * 8) with 32.
    rewrite !Z.mod_small by assumption.
    rewrite lor_shiftl_add by lia. lia.
Qed.

(** With the macro commented out on a big-endian host, the two halves are
    the other way round: [dwordStruct] is not under the [#ifdef]. *)
Lemma OscTimeTag_big_endian (p : Platform) (s f : Z) :
  configured p -> host_little_endian p = false ->
  0 <= s < 2 ^ 32 -> 0 <= f < 2 ^ 32 ->
  encode64 p (V_TimeTag {| seconds := s; fraction := f |})
  = be_split 4 f ++ be_split 4 s /\
  OscTimeTag.value p (OscTimeTag.make p s f) = f * 2 ^ 32 + s.
Proof.
  intros Hp Hh Hs Hf. split.
  - unfold encode64. rewrite zeroed_OscArgument64.
    generalize (repeat Byte.x00 (sizeof p (OscArgument64_decl p) - 8)) as tail.
    intros tail. rewrite !be_split_4.
    revert Hp Hh. by_platform p; intros _ _.
    unfold store64, OscArgument64.set_fraction, OscArgument64.set_seconds,
           OscTimeTag.set_fraction, OscTimeTag.set_seconds, store_uint,
           host_split.
    cbn [host_little_endian seconds fraction]. rewrite !le_split_4.
    reflexivity.
  - rewrite OscTimeTag_make_bytes.
    unfold OscTimeTag.value, load_uint, host_combine, host_split.
    rewrite Hh.
    change (load_bytes (rev (le_split 4 f) ++ rev (le_split 4 s)) 0 8)
      with (firstn 8 (rev (le_split 4 f) ++ rev (le_split 4 s))).
    rewrite firstn_all2
      by (rewrite length_app, !length_rev, !length_le_split; lia).
    rewrite rev_app_distr, !rev_involutive.
    rewrite le_combine_app, !le_combine_split, length_le_split.
    change (Z.of_nat 4 * 8) with 32.
    rewrite !Z.mod_small by assumption.
    rewrite lor_shiftl_add by lia. lia.
Qed.

End TimeTagHalves.

(* ===================================================================== *)
(** * Evaluation on the concrete platforms *)
(* ===================================================================== *)

Example encode32_float32_one :
  encode32 x86_64 (V_float32 0x3f800000)
  = [Byte.x3f; Byte.x80; Byte.x00; Byte.x00].
Proof. reflexivity. Qed.

Example encode32_int32_minus_two_big_endian :
  encode32 big_endian_target (V_int32 (-2))
  = [Byte.xff; Byte.xff; Byte.xff; Byte.xfe].
Proof. reflexivity. Qed.

Example rgbaColour_in_memory :
  OscArgument32.set_rgbaColour x86_64 (zeroed x86_64 (OscArgument32_decl x86_64))
    {| red := Byte.x11; green := Byte.x22; blue := Byte.x33; alpha := Byte.x44 |}
  = [Byte.x44; Byte.x33; Byte.x22; Byte.x11] /\
  OscArgument32.set_rgbaColour big_endian_target
    (zeroed big_endian_target (OscArgument32_decl big_endian_target))
    {| red := Byte.x11; green := Byte.x22; blue := Byte.x33; alpha := Byte.x44 |}
  = [Byte.x11; Byte.x22; Byte.x33; Byte.x44].
Proof. split; reflexivity. Qed.

Example encode64_TimeTag_little_endian :
  encode64 x86_64 (V_TimeTag {| seconds := 1; fraction := 2 |})
  = [Byte.x00; Byte.x00; Byte.x00; Byte.x01;
     Byte.x00; Byte.x00; Byte.x00; Byte.x02].
Proof. reflexivity. Qed.

(** The macro left defined on a big-endian host: the hypothesis [configured]
    of the results below cannot be dropped. *)
Example encode32_macro_left_defined_on_big_endian :
  encode32 {| LITTLE_ENDIAN_PLATFORM := true; host_little_endian := false;
              DBL_MANT_DIG := 53; sizeof_double := 8;
              sizeof_long_double := 16 |} (V_int32 1)
  = [Byte.x01; Byte.x00; Byte.x00; Byte.x00].
Proof. reflexivity. Qed.

(** Where [long double] stands in for [Double64] and is 16 bytes wide, the
    8 bytes of [byteStruct] do not carry the whole member. *)
Example double64_wider_than_byteStruct :
  decode64 x86_64_short_double
           (encode64 x86_64_short_double (V_double64 (2 ^ 64 + 5))) Ty_double64
  = V_double64 5.
Proof. reflexivity. Qed.

(* ===================================================================== *)
(** * Byte view and significance *)
(* ===================================================================== *)

(** C1, as stated, fails: in [OscCommon.h] the field [byte0] of every
    [byteStruct] is the least-significant byte.  For the [int32] 1, on the
    little-endian and on the big-endian configuration, [byte0] is 0x01 while
    the most-significant byte of the value, which is also the first byte on
    the wire, is 0x00; the same holds for the 64-bit unions. *)
Lemma byte0_is_not_most_significant :
  (let u := OscArgument32.set_int32 x86_64 (zeroed x86_64 (OscArgument32_decl x86_64)) 1 in
   OscArgument32.byteStruct x86_64 "byte0" u = Byte.x01 /\
   byte.of_Z (Z.shiftr (OscArgument32.int32 x86_64 u) 24) = Byte.x00 /\
   hd Byte.xff (wire32 x86_64 u) = Byte.x00) /\
  (let u := OscArgument32.set_int32 big_endian_target
              (zeroed big_endian_target (OscArgument32_decl big_endian_target)) 1 in
   OscArgument32.byteStruct big_endian_target "byte0" u = Byte.x01 /\
   byte.of_Z (Z.shiftr (OscArgument32.int32 big_endian_target u) 24) = Byte.x00 /\
   hd Byte.xff (wire32 big_endian_target u) = Byte.x00) /\
  (let u := OscArgument64.set_int64 x86_64 (zeroed x86_64 (OscArgument64_decl x86_64)) 1 in
   OscArgument64.byteStruct x86_64 "byte0" u = Byte.x01 /\
   byte.of_Z (Z.shiftr (OscArgument64.int64 x86_64 u) 56) = Byte.x00 /\
   hd Byte.xff (wire64 x86_64 u) = Byte.x00) /\
  (let t := OscTimeTag.set_value x86_64 (zeroed x86_64 (OscTimeTag_decl x86_64)) 1 in
   OscTimeTag.byteStruct x86_64 "byte0" t = Byte.x01 /\
   byte.of_Z (Z.shiftr (OscTimeTag.value x86_64 t) 56) = Byte.x00).
Proof. vm_compute. repeat split. Qed.

(** C1, amended: on both configurations, for every [OscArgument32],
    [OscArgument64] and [OscTimeTag] object, the highest-numbered field of
    the byte view ([byte3], resp. [byte7]) is the most-significant byte of the
    numeric member and [byte0] is the least-significant one; the fields taken
    from [byte3] (resp. [byte7]) down to [byte0] are the big-endian bytes of
    the value, so the wire's first byte is the most-significant. *)
Theorem byteStruct_numbered_by_significance
        (p : Platform) (u32 u64 t : object) :
  configured p -> length u32 = 4 -> 8 <= length u64 -> 8 <= length t ->
  (OscArgument32.byteStruct p "byte3" u32
     = byte.of_Z (Z.shiftr (OscArgument32.int32 p u32) 24) /\
   OscArgument32.byteStruct p "byte0" u32
     = byte.of_Z (OscArgument32.int32 p u32) /\
   wire32 p u32 = be_split 4 (OscArgument32.int32 p u32)) /\
  (OscArgument64.byteStruct p "byte7" u64
     = byte.of_Z (Z.shiftr (OscArgument64.int64 p u64) 56) /\
   OscArgument64.byteStruct p "byte0" u64
     = byte.of_Z (OscArgument64.int64 p u64) /\
   wire64 p u64 = be_split 8 (OscArgument64.int64 p u64)) /\
  (OscTimeTag.byteStruct p "byte7" t
     = byte.of_Z (Z.shiftr (OscTimeTag.value p t) 56) /\
   OscTimeTag.byteStruct p "byte0" t
     = byte.of_Z (OscTimeTag.value p t) /\
   wire64 p t = be_split 8 (OscTimeTag.value p t)).
Proof.
  intros Hp H32 H64 Ht.
  pose proof (wire32_int32 p u32 Hp H32) as W32.
  pose proof (wire64_big_endian p u64 Hp H64) as W64.
  pose proof (wire64_big_endian p t Hp Ht) as Wt.
  rewrite be_split_4 in W32. rewrite be_split_8 in W64, Wt.
  unfold wire32, wire64, msb_first32, msb_first64 in W32, W64, Wt.
  cbn [map] in W32, W64, Wt.
  injection W32 as E3 _ _ E0.
  injection W64 as E7 _ _ _ _ _ _ F0.
  injection Wt as G7 _ _ _ _ _ _ G0.
  repeat split; try assumption.
  - apply wire32_int32; assumption.
  - apply wire64_big_endian; assumption.
  - apply wire64_big_endian; assumption.
Qed.

Lemma byteStruct_numbered_by_significance_witness :
  configured big_endian_target /\ length sample32 = 4 /\
  8 <= length sample64 /\
  OscArgument32.byteStruct big_endian_target "byte3" sample32
  = byte.of_Z (Z.shiftr (OscArgument32.int32 big_endian_target sample32) 24) /\
  wire64 big_endian_target sample64
  = be_split 8 (OscTimeTag.value big_endian_target sample64).
Proof.
  assert (C : configured big_endian_target) by reflexivity.
  assert (L4 : length sample32 = 4) by reflexivity.
  assert (L8 : 8 <= length sample64) by (simpl; apply le_n).
  split; [exact C|]. split; [exact L4|]. split; [exact L8|]. split.
  - exact (proj1 (proj1 (byteStruct_numbered_by_significance
                           big_endian_target sample32 sample64 sample64
                           C L4 L8 L8))).
  - exact (proj2 (proj2 (proj2 (proj2 (byteStruct_numbered_by_significance
                           big_endian_target sample32 sample64 sample64
                           C L4 L8 L8))))).
Defined.

(* ===================================================================== *)
(** * Colours and MIDI messages on the wire *)
(* ===================================================================== *)

(** C2: for every colour and every MIDI message, on either configuration,
    [encode32] puts the four named fields in their declared wire positions
    (red, green, blue, alpha; portID, status, data1, data2), whatever the
    bytes are; the colour 0x11, 0x22, 0x33, 0x44 is encoded as those four
    bytes in that order. *)
Theorem encode32_fields_in_wire_order
        (p : Platform) (c : RgbaColour) (m : MidiMessage) :
  encode32 p (V_RgbaColour c) = [red c; green c; blue c; alpha c] /\
  encode32 p (V_MidiMessage m) = [portID m; status m; data1 m; data2 m] /\
  encode32 p (V_RgbaColour {| red := Byte.x11; green := Byte.x22;
                              blue := Byte.x33; alpha := Byte.x44 |})
  = [Byte.x11; Byte.x22; Byte.x33; Byte.x44].
Proof.
  split; [apply encode32_RgbaColour|].
  split; [apply encode32_MidiMessage|].
  apply encode32_RgbaColour.
Qed.

(** C6: on a little-endian and on a big-endian platform, each configured as
    the header asks, [encode32] of the [int32] 1 is 0x00, 0x00, 0x00, 0x01. *)
Theorem encode32_int32_one (p : Platform) :
  configured p ->
  encode32 p (V_int32 1) = [Byte.x00; Byte.x00; Byte.x00; Byte.x01].
Proof.
  intros Hp. rewrite encode32_int32 by exact Hp. reflexivity.
Qed.

Lemma encode32_int32_one_witness :
  (configured x86_64 /\
   encode32 x86_64 (V_int32 1) = [Byte.x00; Byte.x00; Byte.x00; Byte.x01]) /\
  (configured big_endian_target /\
   encode32 big_endian_target (V_int32 1)
   = [Byte.x00; Byte.x00; Byte.x00; Byte.x01]).
Proof.
  split; split.
  - reflexivity.
  - apply (encode32_int32_one x86_64). reflexivity.
  - reflexivity.
  - apply (encode32_int32_one big_endian_target). reflexivity.
Defined.

(** C10: on both configurations and for every [OscArgument32] object,
    [rgbaColour.red] and [midiMessage.portID] are at the offset of
    [byteStruct.byte3], which holds the most-significant byte of the [int32]
    member, and [alpha] and [data2] are at the offset of [byteStruct.byte0],
    which holds the least-significant one; that offset is 3 (resp. 0) when
    the macro is defined and 0 (resp. 3) when it is not. *)
Theorem named_fields_keep_their_significance (p : Platform) (u : object) :
  configured p -> length u = 4 ->
  (offsetof p (RgbaColour_decl p) "red" = offsetof p (byteStruct32_decl p) "byte3" /\
   offsetof p (MidiMessage_decl p) "portID" = offsetof p (byteStruct32_decl p) "byte3" /\
   offsetof p (byteStruct32_decl p) "byte3" = (if LITTLE_ENDIAN_PLATFORM p then 3 else 0)) /\
  (offsetof p (RgbaColour_decl p) "alpha" = offsetof p (byteStruct32_decl p) "byte0" /\
   offsetof p (MidiMessage_decl p) "data2" = offsetof p (byteStruct32_decl p) "byte0" /\
   offsetof p (byteStruct32_decl p) "byte0" = (if LITTLE_ENDIAN_PLATFORM p then 0 else 3)) /\
  (red (OscArgument32.rgbaColour p u) = OscArgument32.byteStruct p "byte3" u /\
   portID (OscArgument32.midiMessage p u) = OscArgument32.byteStruct p "byte3" u /\
   OscArgument32.byteStruct p "byte3" u
   = byte.of_Z (Z.shiftr (OscArgument32.int32 p u) 24)) /\
  (alpha (OscArgument32.rgbaColour p u) = OscArgument32.byteStruct p "byte0" u /\
   data2 (OscArgument32.midiMessage p u) = OscArgument32.byteStruct p "byte0" u /\
   OscArgument32.byteStruct p "byte0" u = byte.of_Z (OscArgument32.int32 p u)).
Proof.
  intros Hp Hu.
  pose proof (wire32_int32 p u Hp Hu) as W. rewrite be_split_4 in W.
  unfold wire32, msb_first32 in W. cbn [map] in W.
  injection W as E3 _ _ E0.
  assert (O : (offsetof p (RgbaColour_decl p) "red" = offsetof p (byteStruct32_decl p) "byte3" /\
               offsetof p (MidiMessage_decl p) "portID" = offsetof p (byteStruct32_decl p) "byte3" /\
               offsetof p (byteStruct32_decl p) "byte3" = (if LITTLE_ENDIAN_PLATFORM p then 3 else 0)) /\
              (offsetof p (RgbaColour_decl p) "alpha" = offsetof p (byteStruct32_decl p) "byte0" /\
               offsetof p (MidiMessage_decl p) "data2" = offsetof p (byteStruct32_decl p) "byte0" /\
               offsetof p (byteStruct32_decl p) "byte0" = (if LITTLE_ENDIAN_PLATFORM p then 0 else 3))).
  { clear. destruct p as [[] ? ? ? ?]; repeat split. }
  destruct O as [[Or [Op O3]] [Oa [Od O0]]].
  repeat split; try assumption;
    unfold OscArgument32.rgbaColour, OscArgument32.midiMessage,
           OscArgument32.byteStruct, get_field; cbn [red portID alpha data2];
    congruence.
Qed.

Lemma named_fields_keep_their_significance_witness :
  configured x86_64 /\ length sample32 = 4 /\
  red (OscArgument32.rgbaColour x86_64 sample32)
  = OscArgument32.byteStruct x86_64 "byte3" sample32 /\
  OscArgument32.byteStruct x86_64 "byte3" sample32
  = byte.of_Z (Z.shiftr (OscArgument32.int32 x86_64 sample32) 24).
Proof.
  assert (C : configured x86_64) by reflexivity.
  assert (L : length sample32 = 4) by reflexivity.
  pose proof (named_fields_keep_their_significance x86_64 sample32 C L)
    as [_ [_ [[Hr [_ Hb]] _]]].
  split; [exact C|]. split; [exact L|]. split; [exact Hr | exact Hb].
Defined.

(* ===================================================================== *)
(** * The width of [Double64] and the sizes of the unions *)
(* ===================================================================== *)

(** C3, as stated, fails: on avr-gcc the native [double] is 4 bytes wide, and
    the header neither stops the build nor gives [Double64] 8 bytes; it
    defines [Double64] as [long double], which is 4 bytes wide there. *)
Lemma Double64_no_build_guard :
  sizeof avr Tdouble <> 8 /\
  configure_Double64 avr = Defined_as Tlong_double /\
  (forall message, configure_Double64 avr <> Build_error message) /\
  sizeof avr (Double64 avr) = 4.
Proof.
  split; [vm_compute; discriminate|].
  split; [reflexivity|].
  split; [intros message; vm_compute; discriminate | reflexivity].
Qed.

(** C3, amended: the header never stops the build on account of the width of
    [double].  When [DBL_MANT_DIG] is 53, [Double64] is [double]; otherwise
    it is [long double], and its width is whatever the platform gives that
    type. *)
Theorem Double64_falls_back_to_long_double (p : Platform) :
  configure_Double64 p = Defined_as (Double64 p) /\
  Double64 p = (if (DBL_MANT_DIG p =? 53)%Z then Tdouble else Tlong_double) /\
  sizeof p (Double64 p)
  = (if (DBL_MANT_DIG p =? 53)%Z then sizeof_double p else sizeof_long_double p).
Proof.
  unfold configure_Double64, Double64.
  destruct (DBL_MANT_DIG p =? 53)%Z; repeat split.
Qed.

(** C9, as stated, fails: where [double] has a 24-bit mantissa and
    [long double] is 16 bytes wide, [Double64] is [long double] and
    [OscArgument64] is 16 bytes wide. *)
Lemma OscArgument64_wider_than_8_bytes :
  sizeof x86_64_short_double (OscArgument64_decl x86_64_short_double) = 16 /\
  sizeof x86_64_short_double (OscArgument64_decl x86_64_short_double) <> 8.
Proof. split; [reflexivity | vm_compute; discriminate]. Qed.

(** C9, amended: on every platform [OscArgument32] is exactly 4 bytes and
    [OscTimeTag] exactly 8 bytes wide, and each of their members fills them;
    [OscArgument64] is exactly 8 bytes wide, with its integer, time tag and
    byte members filling it, whenever [Double64] is at most 8 bytes wide. *)
Theorem argument_unions_have_fixed_size (p : Platform) :
  (sizeof p (OscArgument32_decl p) = 4 /\
   Forall (fun m => sizeof p (snd m) = 4)
          (members (OscArgument32_decl p))) /\
  (sizeof p (OscTimeTag_decl p) = 8 /\
   Forall (fun m => sizeof p (snd m) = 8)
          (members (OscTimeTag_decl p))) /\
  (sizeof p (Double64 p) <= 8 ->
   sizeof p (OscArgument64_decl p) = 8 /\
   Forall (fun m => fst m = "double64" \/ sizeof p (snd m) = 8)
          (members (OscArgument64_decl p))).
Proof.
  pose proof (sizeof_RgbaColour p). pose proof (sizeof_MidiMessage p).
  pose proof (sizeof_byteStruct32 p). pose proof (sizeof_byteStruct64 p).
  pose proof (sizeof_OscTimeTag p).
  split; [|split]; [split | split | intros Hd; split].
  - apply sizeof_OscArgument32.
  - unfold OscArgument32_decl, members. repeat constructor; assumption.
  - apply sizeof_OscTimeTag.
  - unfold OscTimeTag_decl, members. repeat constructor; assumption.
  - rewrite sizeof_OscArgument64. lia.
  - unfold OscArgument64_decl, members.
    repeat (apply Forall_cons || apply Forall_nil); cbn [fst snd];
      [right; reflexivity | right; assumption | left; reflexivity
      | right; assumption].
Qed.

Lemma argument_unions_have_fixed_size_witness :
  (sizeof avr (Double64 avr) <= 8 /\ sizeof avr (OscArgument64_decl avr) = 8) /\
  (sizeof x86_64 (Double64 x86_64) <= 8 /\
   sizeof x86_64 (OscArgument64_decl x86_64) = 8) /\
  (sizeof x86_64_short_double (OscArgument32_decl x86_64_short_double) = 4 /\
   sizeof x86_64_short_double (OscTimeTag_decl x86_64_short_double) = 8).
Proof.
  assert (Ha : sizeof avr (Double64 avr) <= 8)
    by (apply Nat.leb_le; reflexivity).
  assert (Hx : sizeof x86_64 (Double64 x86_64) <= 8)
    by (apply Nat.leb_le; reflexivity).
  split; [split | split; split].
  - exact Ha.
  - exact (proj1 (proj2 (proj2 (argument_unions_have_fixed_size avr)) Ha)).
  - exact Hx.
  - exact (proj1 (proj2 (proj2 (argument_unions_have_fixed_size x86_64)) Hx)).
  - exact (proj1 (proj1 (argument_unions_have_fixed_size x86_64_short_double))).
  - exact (proj1 (proj1 (proj2
             (argument_unions_have_fixed_size x86_64_short_double)))).
Defined.

(* ===================================================================== *)
(** * Time tags *)
(* ===================================================================== *)

(** C4 at the failing input: on a big-endian target configured as the header
    asks, the tag with 1 second and no fraction is encoded with the second in
    the last four wire bytes, where the claim puts the fraction, and its
    64-bit value is 1 instead of 2^32. *)
Theorem OscTimeTag_halves_swapped_on_big_endian :
  configured big_endian_target /\
  OscTimeTag.make big_endian_target 1 0
  = [Byte.x00; Byte.x00; Byte.x00; Byte.x00;
     Byte.x00; Byte.x00; Byte.x00; Byte.x01] /\
  wire64 big_endian_target (OscTimeTag.make big_endian_target 1 0)
  = [Byte.x00; Byte.x00; Byte.x00; Byte.x00;
     Byte.x00; Byte.x00; Byte.x00; Byte.x01] /\
  encode64 big_endian_target (V_TimeTag {| seconds := 1; fraction := 0 |})
  = [Byte.x00; Byte.x00; Byte.x00; Byte.x00;
     Byte.x00; Byte.x00; Byte.x00; Byte.x01] /\
  be_split 4 1 ++ be_split 4 0
  = [Byte.x00; Byte.x00; Byte.x00; Byte.x01;
     Byte.x00; Byte.x00; Byte.x00; Byte.x00] /\
  OscTimeTag.value big_endian_target (OscTimeTag.make big_endian_target 1 0)
  = 1%Z /\
  (1 * 2 ^ 32 + 0 = 4294967296)%Z.
Proof. repeat split. Qed.

Lemma all_zero_repeat (l : list byte) :
  forallb (fun b => Byte.eqb b Byte.x00) l = true <-> l = repeat Byte.x00 (length l).
Proof.
  induction l as [|a l IH]; simpl.
  - split; reflexivity.
  - rewrite andb_true_iff, IH. split.
    + intros [Ha Hl]. apply Byte.byte_dec_bl in Ha. congruence.
    + intros H. injection H as Ha Hl. split; [|exact Hl].
      rewrite Ha. reflexivity.
Qed.

Lemma length_OscTimeTag_make (p : Platform) (s f : Z) :
  length (OscTimeTag.make p s f) = 8.
Proof.
  rewrite OscTimeTag_make_bytes, length_app, !length_host_split. reflexivity.
Qed.

Lemma OscTimeTag_make_zero (p : Platform) : OscTimeTag.make p 0 0 = oscTimeTagZero p.
Proof.
  unfold oscTimeTagZero. rewrite OscTimeTag_make_bytes, zeroed_OscTimeTag.
  unfold host_split. destruct (host_little_endian p); reflexivity.
Qed.

(** C7: [isImmediateTimeTag] is true exactly of the tags whose bytes are all
    zero.  It is true of [oscTimeTagZero], which is the 8-byte tag with
    0 seconds and 0 fraction, and for every tag made of [s] seconds and [f]
    fraction it is true only when both are 0. *)
Theorem isImmediateTimeTag_iff_zero (p : Platform) (tag : object) (s f : Z) :
  (0 <= s < 2 ^ 32)%Z -> (0 <= f < 2 ^ 32)%Z ->
  (isImmediateTimeTag tag = true <-> Forall (fun b => b = Byte.x00) tag) /\
  (oscTimeTagZero p = repeat Byte.x00 8 /\
   oscTimeTagZero p = OscTimeTag.make p 0 0 /\
   isImmediateTimeTag (oscTimeTagZero p) = true) /\
  (isImmediateTimeTag (OscTimeTag.make p s f) = true <-> s = 0%Z /\ f = 0%Z) /\
  (s <> 0%Z \/ f <> 0%Z -> isImmediateTimeTag (OscTimeTag.make p s f) = false).
Proof.
  intros Hs Hf.
  assert (Hiff : isImmediateTimeTag (OscTimeTag.make p s f) = true
                 <-> s = 0%Z /\ f = 0%Z).
  { unfold isImmediateTimeTag. rewrite all_zero_repeat, length_OscTimeTag_make.
    split.
    - intros E.
      pose proof (dwordStruct_load_store p (repeat Byte.x00 8) s f) as L.
      specialize (L (Nat.le_refl 8)). cbv zeta in L.
      unfold OscTimeTag.make in E. rewrite zeroed_OscTimeTag in E.
      rewrite E in L. destruct L as [Ls Lf].
      rewrite Z.mod_small in Ls, Lf by assumption.
      rewrite <- Ls, <- Lf.
      unfold OscTimeTag.seconds, OscTimeTag.fraction, load_uint, host_combine.
      destruct (host_little_endian p); split; reflexivity.
    - intros [-> ->]. rewrite OscTimeTag_make_zero.
      unfold oscTimeTagZero. apply zeroed_OscTimeTag. }
  split; [|split; [|split]].
  - unfold isImmediateTimeTag. rewrite forallb_forall, Forall_forall.
    split; intros H b Hb.
    + apply Byte.byte_dec_bl. apply H. exact Hb.
    + apply Byte.byte_dec_lb. apply H. exact Hb.
  - split; [apply zeroed_OscTimeTag|].
    split; [symmetry; apply OscTimeTag_make_zero|].
    unfold oscTimeTagZero. rewrite zeroed_OscTimeTag. reflexivity.
  - exact Hiff.
  - intros H. apply not_true_is_false. intros E. apply Hiff in E. lia.
Qed.

Lemma isImmediateTimeTag_iff_zero_witness :
  (0 <= 0 < 2 ^ 32)%Z /\ (0 <= 5 < 2 ^ 32)%Z /\
  isImmediateTimeTag (oscTimeTagZero x86_64) = true /\
  (isImmediateTimeTag (OscTimeTag.make big_endian_target 0 5) = true
   <-> 0%Z = 0%Z /\ 5%Z = 0%Z).
Proof.
  assert (H0 : (0 <= 0 < 2 ^ 32)%Z) by (split; [discriminate | reflexivity]).
  assert (H5 : (0 <= 5 < 2 ^ 32)%Z) by (split; [discriminate | reflexivity]).
  split; [exact H0|]. split; [exact H5|]. split.
  - exact (proj2 (proj2 (proj1 (proj2
             (isImmediateTimeTag_iff_zero x86_64 [] 0 5 H0 H5))))).
  - exact (proj1 (proj2 (proj2
             (isImmediateTimeTag_iff_zero big_endian_target [] 0 5 H0 H5)))).
Defined.

(* ===================================================================== *)
(** * Round trip *)
(* ===================================================================== *)




(* ===================================================================== *)
(** * Classification of packet contents *)
(* ===================================================================== *)

Lemma has_prefix_firstn (prefix bytes : list byte) :
  has_prefix prefix bytes = true <-> firstn (length prefix) bytes = prefix.
Proof.
  revert bytes. induction prefix as [|c prefix IH]; intros bytes.
  - simpl. split; reflexivity.
  - destruct bytes as [|b bytes]; simpl.
    + split; discriminate.
    + rewrite andb_true_iff, IH. split.
      * intros [Hc Hp]. apply Byte.byte_dec_bl in Hc. congruence.
      * intros H. injection H as Hb Hp. split; [|exact Hp].
        apply Byte.byte_dec_lb. congruence.
Qed.

Lemma has_prefix_length (prefix bytes : list byte) :
  has_prefix prefix bytes = true -> length prefix <= length bytes.
Proof.
  intros H. apply has_prefix_firstn in H.
  rewrite <- H at 1. rewrite length_firstn. lia.
Qed.

(** C8: for every buffer, [OscContentsIsMessage] is true exactly when the
    first byte is 0x2F and [OscContentsIsBundle] exactly when the first
    7 bytes are the ASCII string #bundle; both are false for the empty
    buffer, and [OscContentsIsBundle] is false for every buffer of fewer than
    7 bytes. *)
Theorem contents_classification (bytes : list byte) :
  (OscContentsIsMessage bytes = true <-> nth_error bytes 0 = Some Byte.x2f) /\
  (OscContentsIsBundle bytes = true
   <-> firstn 7 bytes = list_byte_of_string "#bundle") /\
  OscContentsIsMessage [] = false /\
  OscContentsIsBundle [] = false /\
  (length bytes < 7 -> OscContentsIsBundle bytes = false) /\
  (hd_error bytes <> Some Byte.x2f -> OscContentsIsMessage bytes = false) /\
  (hd_error bytes <> Some Byte.x23 -> OscContentsIsBundle bytes = false).
Proof.
  split; [|split; [|split; [|split; [|split; [|split]]]]].
  - destruct bytes as [|b bytes]; simpl.
    + split; discriminate.
    + split.
      * intros H. apply Byte.byte_dec_bl in H. congruence.
      * intros H. injection H as ->. reflexivity.
  - unfold OscContentsIsBundle. apply (has_prefix_firstn bundle_prefix).
  - reflexivity.
  - reflexivity.
  - intros H. apply not_true_is_false. intros E.
    apply has_prefix_length in E. simpl in E. lia.
  - intros H. apply not_true_is_false. intros E.
    destruct bytes as [|b bytes]; [discriminate|].
    simpl in E. apply Byte.byte_dec_bl in E. simpl in H. congruence.
  - intros H. apply not_true_is_false. intros E.
    destruct bytes as [|b bytes]; [discriminate|].
    unfold OscContentsIsBundle, bundle_prefix in E. simpl in E.
    apply andb_true_iff in E. destruct E as [E _].
    apply Byte.byte_dec_bl in E. simpl in H. congruence.
Qed.

(* ===================================================================== *)
(** * Further properties of the layouts *)
(* ===================================================================== *)

Section Weights.

Local Open Scope Z_scope.

Lemma le_combine_cons (b : byte) (bs : list byte) :
  le_combine (b :: bs) = byte.unsigned b + 2 ^ 8 * le_combine bs.
Proof.
  change (le_combine (b :: bs))
    with (Z.lor (byte.unsigned b) (Z.shiftl (le_combine bs) 8)).
  rewrite lor_shiftl_add by (try lia; apply byte.unsigned_range). lia.
Qed.

Lemma be_value_app (bs cs : list byte) :
  be_value (bs ++ cs)
  = be_value bs * 2 ^ (8 * Z.of_nat (length cs)) + be_value cs.
Proof.
  induction bs as [|b bs IH]; cbn [be_value app]; [lia|].
  rewrite IH, length_app, Nat2Z.inj_add.
  replace (8 * (Z.of_nat (length bs) + Z.of_nat (length cs)))
    with (8 * Z.of_nat (length bs) + 8 * Z.of_nat (length cs)) by lia.
  rewrite Z.pow_add_r by lia. ring.
Qed.

(** Little-endian bytes, read from the last one, give the same number. *)
Lemma le_combine_be_value (bs : list byte) :
  le_combine bs = be_value (rev bs).
Proof.
  induction bs as [|b bs IH]; [reflexivity|].
  rewrite le_combine_cons, IH. cbn [rev].
  rewrite be_value_app. cbn [be_value length].
  change (8 * Z.of_nat 1) with 8. change (8 * Z.of_nat 0) with 0.
  rewrite Z.pow_0_r. lia.
Qed.

Lemma host_combine_be_value (p : Platform) (bs : list byte) :
  host_combine p bs = be_value (if host_little_endian p then rev bs else bs).
Proof.
  unfold host_combine. destruct (host_little_endian p).
  - apply le_combine_be_value.
  - rewrite le_combine_be_value, rev_involutive. reflexivity.
Qed.

Lemma be_value_bound (bs : list byte) :
  0 <= be_value bs < 2 ^ (8 * Z.of_nat (length bs)).
Proof.
  pose proof (le_combine_bound (rev bs)) as H.
  rewrite le_combine_be_value, rev_involutive, length_rev in H. exact H.
Qed.

End Weights.

(* ===================================================================== *)
(** ** Members of [OscArgument32] read through one another *)
(* ===================================================================== *)

(** X1: [rgbaColour] and [midiMessage] lie on the same four bytes, field on
    field, on either configuration and whatever the byte order of the host: a
    colour assigned to an [OscArgument32] is read back through [midiMessage]
    as portID = red, status = green, data1 = blue, data2 = alpha, and a MIDI
    message assigned to it is read back through [rgbaColour] the same way. *)
Theorem rgbaColour_and_midiMessage_share_fields
        (p : Platform) (u : object) (c : RgbaColour) (m : MidiMessage) :
  length u = 4 ->
  OscArgument32.midiMessage p (OscArgument32.set_rgbaColour p u c)
  = {| portID := red c; status := green c; data1 := blue c; data2 := alpha c |} /\
  OscArgument32.rgbaColour p (OscArgument32.set_midiMessage p u m)
  = {| red := portID m; green := status m; blue := data1 m; alpha := data2 m |}.
Proof.
  intros Hu.
  destruct u as [|b0 [|b1 [|b2 [|b3 [|b4 u]]]]]; try discriminate.
  destruct p as [[] ? ? ? ?]; split; reflexivity.
Qed.

Lemma rgbaColour_and_midiMessage_share_fields_witness :
  length sample32 = 4 /\
  OscArgument32.midiMessage big_endian_macro_left_defined
    (OscArgument32.set_rgbaColour big_endian_macro_left_defined sample32
       {| red := Byte.x11; green := Byte.x22; blue := Byte.x33; alpha := Byte.x44 |})
  = {| portID := Byte.x11; status := Byte.x22; data1 := Byte.x33; data2 := Byte.x44 |}.
Proof.
  assert (L : length sample32 = 4) by reflexivity.
  split; [exact L|].
  exact (proj1 (rgbaColour_and_midiMessage_share_fields
                  big_endian_macro_left_defined sample32
                  {| red := Byte.x11; green := Byte.x22;
                     blue := Byte.x33; alpha := Byte.x44 |}
                  {| portID := Byte.x00; status := Byte.x00;
                     data1 := Byte.x00; data2 := Byte.x00 |} L)).
Defined.

(** X2: on a configured platform the 32-bit pattern of every
    [OscArgument32] object is byte3 * 2^24 + byte2 * 2^16 + byte1 * 2^8 +
    byte0 of its byte view, which is also red * 2^24 + green * 2^16 +
    blue * 2^8 + alpha of its colour and portID * 2^24 + status * 2^16 +
    data1 * 2^8 + data2 of its MIDI message; [int32] is that pattern read in
    two's complement. *)
Theorem OscArgument32_value_from_fields (p : Platform) (u : object) :
  configured p -> length u = 4 ->
  let bytes := map (fun f => OscArgument32.byteStruct p f u) msb_first32 in
  let c := OscArgument32.rgbaColour p u in
  let m := OscArgument32.midiMessage p u in
  OscArgument32.float32 p u = be_value bytes /\
  OscArgument32.int32 p u = signed 32 (be_value bytes) /\
  be_value bytes
  = (byte.unsigned (OscArgument32.byteStruct p "byte3" u) * 2 ^ 24
     + byte.unsigned (OscArgument32.byteStruct p "byte2" u) * 2 ^ 16
     + byte.unsigned (OscArgument32.byteStruct p "byte1" u) * 2 ^ 8
     + byte.unsigned (OscArgument32.byteStruct p "byte0" u))%Z /\
  be_value bytes
  = (byte.unsigned (red c) * 2 ^ 24 + byte.unsigned (green c) * 2 ^ 16
     + byte.unsigned (blue c) * 2 ^ 8 + byte.unsigned (alpha c))%Z /\
  be_value bytes
  = (byte.unsigned (portID m) * 2 ^ 24 + byte.unsigned (status m) * 2 ^ 16
     + byte.unsigned (data1 m) * 2 ^ 8 + byte.unsigned (data2 m))%Z.
Proof.
  intros Hp Hu.
  destruct u as [|b0 [|b1 [|b2 [|b3 [|b4 u]]]]]; try discriminate.
  cbv zeta.
  assert (E : OscArgument32.float32 p [b0; b1; b2; b3]
              = be_value (map (fun f => OscArgument32.byteStruct p f [b0; b1; b2; b3])
                              msb_first32)).
  { unfold OscArgument32.float32, load_uint. rewrite host_combine_be_value.
    revert Hp. by_platform p; intros _; reflexivity. }
  split; [exact E|]. split.
  - unfold OscArgument32.int32. unfold OscArgument32.float32 in E.
    rewrite E. reflexivity.
  - destruct p as [[] ? ? ? ?];
      cbn [map msb_first32 be_value length Z.of_nat Pos.of_succ_nat Pos.succ];
      cbv [OscArgument32.byteStruct OscArgument32.rgbaColour
           OscArgument32.midiMessage get_field red green blue alpha
           portID status data1 data2];
      repeat split; cbn -[byte.unsigned Z.pow Z.mul Z.add];
      change (2 ^ (8 * 0))%Z with 1%Z; lia.
Qed.

Lemma OscArgument32_value_from_fields_witness :
  configured big_endian_target /\ length sample32 = 4 /\
  OscArgument32.float32 big_endian_target sample32
  = be_value (map (fun f => OscArgument32.byteStruct big_endian_target f sample32)
                  msb_first32).
Proof.
  assert (C : configured big_endian_target) by reflexivity.
  assert (L : length sample32 = 4) by reflexivity.
  split; [exact C|]. split; [exact L|].
  exact (proj1 (OscArgument32_value_from_fields big_endian_target sample32 C L)).
Defined.

(* ===================================================================== *)
(** ** Members of [OscTimeTag] and [OscArgument64] read through one another *)
(* ===================================================================== *)

(** X3: on a configured platform the 64-bit value of every [OscTimeTag]
    object, and the [int64] of every [OscArgument64] object, is the number
    whose bytes, from the most significant down, are [byteStruct.byte7],
    [byte6], ..., [byte0]. *)
Theorem value64_from_byteStruct (p : Platform) (t u : object) :
  configured p -> 8 <= length t -> 8 <= length u ->
  OscTimeTag.value p t
  = be_value (map (fun f => OscTimeTag.byteStruct p f t) msb_first64) /\
  OscArgument64.int64 p u
  = be_value (map (fun f => OscArgument64.byteStruct p f u) msb_first64).
Proof.
  intros Hp Ht Hu.
  destruct t as [|t0 [|t1 [|t2 [|t3 [|t4 [|t5 [|t6 [|t7 t]]]]]]]];
    simpl in Ht; try lia.
  destruct u as [|u0 [|u1 [|u2 [|u3 [|u4 [|u5 [|u6 [|u7 u]]]]]]]];
    simpl in Hu; try lia.
  unfold OscTimeTag.value, OscArgument64.int64, load_uint.
  rewrite !host_combine_be_value.
  revert Hp. by_platform p; intros _; split; reflexivity.
Qed.

Lemma value64_from_byteStruct_witness :
  configured x86_64 /\ 8 <= length sample64 /\
  OscTimeTag.value x86_64 sample64
  = be_value (map (fun f => OscTimeTag.byteStruct x86_64 f sample64) msb_first64).
Proof.
  assert (C : configured x86_64) by reflexivity.
  assert (L : 8 <= length sample64) by (simpl; apply le_n).
  split; [exact C|]. split; [exact L|].
  exact (proj1 (value64_from_byteStruct x86_64 sample64 sample64 C L L)).
Defined.

Section Halves.

Local Open Scope Z_scope.

Lemma load_uint_bound (p : Platform) (m : object) (off n : nat) :
  0 <= load_uint p m off n < 2 ^ (8 * Z.of_nat n).
Proof.
  unfold load_uint. rewrite host_combine_be_value.
  set (bs := if host_little_endian p
             then rev (load_bytes m off n) else load_bytes m off n).
  pose proof (be_value_bound bs) as B.
  assert (L : (length bs <= n)%nat).
  { unfold bs, load_bytes. destruct (host_little_endian p);
      rewrite ?length_rev, length_firstn; apply Nat.le_min_l. }
  assert (2 ^ (8 * Z.of_nat (length bs)) <= 2 ^ (8 * Z.of_nat n))
    by (apply Z.pow_le_mono_r; lia).
  lia.
Qed.

(** The two fields of [dwordStruct] are the two halves of [value], in the
    order of the host. *)
Lemma value_halves (p : Platform) (t : object) :
  (8 <= length t)%nat ->
  OscTimeTag.value p t
  = (if host_little_endian p
     then OscTimeTag.seconds p t * 2 ^ 32 + OscTimeTag.fraction p t
     else OscTimeTag.fraction p t * 2 ^ 32 + OscTimeTag.seconds p t).
Proof.
  intros Ht.
  destruct t as [|t0 [|t1 [|t2 [|t3 [|t4 [|t5 [|t6 [|t7 t]]]]]]]];
    simpl in Ht; try lia.
  unfold OscTimeTag.value, OscTimeTag.seconds, OscTimeTag.fraction, load_uint.
  rewrite !host_combine_be_value.
  destruct (host_little_endian p);
    cbv [offsetof dwordStruct_decl field_offset String.eqb Ascii.eqb Bool.eqb
         option_map sizeof sizeof_scalar Nat.add load_bytes firstn skipn
         rev app].
  - change [t7; t6; t5; t4; t3; t2; t1; t0]
      with ([t7; t6; t5; t4] ++ [t3; t2; t1; t0]).
    rewrite be_value_app. reflexivity.
  - change [t0; t1; t2; t3; t4; t5; t6; t7]
      with ([t0; t1; t2; t3] ++ [t4; t5; t6; t7]).
    rewrite be_value_app. reflexivity.
Qed.

(** X4: which half of [value] each field of [dwordStruct] is depends on the
    byte order of the host only, the macro playing no part: for every
    [OscTimeTag] object, [seconds] is the high half and [fraction] the low
    half of [value] on a little-endian host, and [fraction] is the high half
    and [seconds] the low half on a big-endian host. *)
Theorem OscTimeTag_value_from_dwordStruct (p : Platform) (t : object) :
  (8 <= length t)%nat ->
  OscTimeTag.value p t
  = (if host_little_endian p
     then OscTimeTag.seconds p t * 2 ^ 32 + OscTimeTag.fraction p t
     else OscTimeTag.fraction p t * 2 ^ 32 + OscTimeTag.seconds p t) /\
  0 <= OscTimeTag.seconds p t < 2 ^ 32 /\
  0 <= OscTimeTag.fraction p t < 2 ^ 32.
Proof.
  intros Ht. split; [apply value_halves; exact Ht|].
  split; apply (load_uint_bound p t _ 4).
Qed.

End Halves.

Lemma OscTimeTag_value_from_dwordStruct_witness :
  8 <= length sample64 /\
  OscTimeTag.value big_endian_target sample64
  = (OscTimeTag.fraction big_endian_target sample64 * 2 ^ 32
     + OscTimeTag.seconds big_endian_target sample64)%Z.
Proof.
  assert (L : 8 <= length sample64) by (simpl; apply le_n).
  split; [exact L|].
  exact (proj1 (OscTimeTag_value_from_dwordStruct big_endian_target sample64 L)).
Defined.

(** X5: on a configured little-endian platform [dwordStruct.seconds] is made
    of [byteStruct.byte7 .. byte4] and [dwordStruct.fraction] of
    [byteStruct.byte3 .. byte0]; on a configured big-endian platform it is
    the other way round, [seconds] being made of [byte3 .. byte0] and
    [fraction] of [byte7 .. byte4]. *)
Theorem dwordStruct_from_byteStruct (p : Platform) (t : object) :
  configured p -> 8 <= length t ->
  let high := map (fun f => OscTimeTag.byteStruct p f t)
                  ["byte7"; "byte6"; "byte5"; "byte4"] in
  let low := map (fun f => OscTimeTag.byteStruct p f t)
                 ["byte3"; "byte2"; "byte1"; "byte0"] in
  OscTimeTag.seconds p t
  = be_value (if host_little_endian p then high else low) /\
  OscTimeTag.fraction p t
  = be_value (if host_little_endian p then low else high).
Proof.
  intros Hp Ht.
  destruct t as [|t0 [|t1 [|t2 [|t3 [|t4 [|t5 [|t6 [|t7 t]]]]]]]];
    simpl in Ht; try lia.
  cbv zeta. unfold OscTimeTag.seconds, OscTimeTag.fraction, load_uint.
  rewrite !host_combine_be_value.
  revert Hp. by_platform p; intros _; split; reflexivity.
Qed.

Lemma dwordStruct_from_byteStruct_witness :
  configured big_endian_target /\ 8 <= length sample64 /\
  OscTimeTag.seconds big_endian_target sample64
  = be_value (map (fun f => OscTimeTag.byteStruct big_endian_target f sample64)
                  ["byte3"; "byte2"; "byte1"; "byte0"]).
Proof.
  assert (C : configured big_endian_target) by reflexivity.
  assert (L : 8 <= length sample64) by (simpl; apply le_n).
  split; [exact C|]. split; [exact L|].
  exact (proj1 (dwordStruct_from_byteStruct big_endian_target sample64 C L)).
Defined.

(* ===================================================================== *)
(** ** The macro set against the host *)
(* ===================================================================== *)

(** X6: when [LITTLE_ENDIAN_PLATFORM] does not match the byte order of the
    host, the numbering of every byte view is upside down: [byte0] is the
    most-significant byte of the numeric member and [byte3] (resp. [byte7])
    the least-significant one. *)
Theorem macro_mismatch_inverts_byteStruct (p : Platform) (u32 u64 : object) :
  LITTLE_ENDIAN_PLATFORM p <> host_little_endian p ->
  length u32 = 4 -> 8 <= length u64 ->
  OscArgument32.float32 p u32
  = be_value (map (fun f => OscArgument32.byteStruct p f u32) (rev msb_first32)) /\
  OscTimeTag.value p u64
  = be_value (map (fun f => OscTimeTag.byteStruct p f u64) (rev msb_first64)).
Proof.
  intros Hp H32 H64.
  destruct u32 as [|a0 [|a1 [|a2 [|a3 [|a4 u32]]]]]; try discriminate.
  destruct u64 as [|t0 [|t1 [|t2 [|t3 [|t4 [|t5 [|t6 [|t7 u64]]]]]]]];
    simpl in H64; try lia.
  unfold OscArgument32.float32, OscTimeTag.value, load_uint.
  rewrite !host_combine_be_value.
  revert Hp. destruct p as [[] [] ? ? ?];
    cbn [LITTLE_ENDIAN_PLATFORM host_little_endian]; intros Hp;
    try (exfalso; apply Hp; reflexivity); split; reflexivity.
Qed.

Lemma macro_mismatch_inverts_byteStruct_witness :
  LITTLE_ENDIAN_PLATFORM big_endian_macro_left_defined
  <> host_little_endian big_endian_macro_left_defined /\
  length sample32 = 4 /\ 8 <= length sample64 /\
  OscArgument32.float32 big_endian_macro_left_defined sample32
  = be_value (map (fun f => OscArgument32.byteStruct
                              big_endian_macro_left_defined f sample32)
                  (rev msb_first32)).
Proof.
  assert (M : LITTLE_ENDIAN_PLATFORM big_endian_macro_left_defined
              <> host_little_endian big_endian_macro_left_defined)
    by (simpl; discriminate).
  assert (L4 : length sample32 = 4) by reflexivity.
  assert (L8 : 8 <= length sample64) by (simpl; apply le_n).
  split; [exact M|]. split; [exact L4|]. split; [exact L8|].
  exact (proj1 (macro_mismatch_inverts_byteStruct
                  big_endian_macro_left_defined sample32 sample64 M L4 L8)).
Defined.

(* ===================================================================== *)
(** ** A number assigned, its fields read *)
(* ===================================================================== *)

(** X7: on a configured platform, after a 32-bit pattern is assigned to the
    numeric member of an [OscArgument32], the colour read from it has the
    pattern's bytes from the most significant down as red, green, blue and
    alpha, and the MIDI message has them as portID, status, data1 and
    data2. *)
Theorem fields_of_assigned_number (p : Platform) (u : object) (bits : Z) :
  configured p -> length u = 4 ->
  OscArgument32.rgbaColour p (OscArgument32.set_float32 p u bits)
  = {| red := byte.of_Z (Z.shiftr bits 24); green := byte.of_Z (Z.shiftr bits 16);
       blue := byte.of_Z (Z.shiftr bits 8); alpha := byte.of_Z bits |} /\
  OscArgument32.midiMessage p (OscArgument32.set_int32 p u bits)
  = {| portID := byte.of_Z (Z.shiftr bits 24); status := byte.of_Z (Z.shiftr bits 16);
       data1 := byte.of_Z (Z.shiftr bits 8); data2 := byte.of_Z bits |}.
Proof.
  intros Hp Hu.
  destruct u as [|b0 [|b1 [|b2 [|b3 [|b4 u]]]]]; try discriminate.
  unfold OscArgument32.set_float32, OscArgument32.set_int32, store_uint,
         host_split.
  revert Hp. by_platform p; intros _; cbn [host_little_endian];
    rewrite le_split_4; split; reflexivity.
Qed.

Lemma fields_of_assigned_number_witness :
  configured x86_64 /\ length sample32 = 4 /\
  OscArgument32.rgbaColour x86_64 (OscArgument32.set_float32 x86_64 sample32 0x11223344)
  = {| red := byte.of_Z (Z.shiftr 0x11223344 24);
       green := byte.of_Z (Z.shiftr 0x11223344 16);
       blue := byte.of_Z (Z.shiftr 0x11223344 8);
       alpha := byte.of_Z 0x11223344 |}.
Proof.
  assert (C : configured x86_64) by reflexivity.
  assert (L : length sample32 = 4) by reflexivity.
  split; [exact C|]. split; [exact L|].
  exact (proj1 (fields_of_assigned_number x86_64 sample32 0x11223344 C L)).
Defined.

Section AssignedValue.

Local Open Scope Z_scope.

(** X8: after a 64-bit value [v] is assigned to [value], [seconds] reads
    [v / 2^32] and [fraction] reads [v mod 2^32] on a little-endian host; on
    a big-endian host [seconds] reads [v mod 2^32] and [fraction] reads
    [v / 2^32]. *)
Theorem dwordStruct_of_assigned_value (p : Platform) (t : object) (v : Z) :
  (8 <= length t)%nat -> 0 <= v < 2 ^ 64 ->
  OscTimeTag.seconds p (OscTimeTag.set_value p t v)
  = (if host_little_endian p then v / 2 ^ 32 else v mod 2 ^ 32) /\
  OscTimeTag.fraction p (OscTimeTag.set_value p t v)
  = (if host_little_endian p then v mod 2 ^ 32 else v / 2 ^ 32).
Proof.
  intros Ht Hv.
  assert (L : (8 <= length (OscTimeTag.set_value p t v))%nat).
  { unfold OscTimeTag.set_value, store_uint. rewrite length_store_bytes.
    exact Ht. }
  pose proof (value_halves p _ L) as E.
  pose proof (load_uint_bound p (OscTimeTag.set_value p t v)
                (offsetof p dwordStruct_decl "seconds") 4) as Bs.
  pose proof (load_uint_bound p (OscTimeTag.set_value p t v)
                (offsetof p dwordStruct_decl "fraction") 4) as Bf.
  fold (OscTimeTag.seconds p (OscTimeTag.set_value p t v)) in Bs.
  fold (OscTimeTag.fraction p (OscTimeTag.set_value p t v)) in Bf.
  change (8 * Z.of_nat 4) with 32 in Bs, Bf.
  assert (V : OscTimeTag.value p (OscTimeTag.set_value p t v) = v).
  { unfold OscTimeTag.value, OscTimeTag.set_value.
    rewrite load_store_uint by lia. apply Z.mod_small. exact Hv. }
  rewrite V in E.
  set (s := OscTimeTag.seconds p (OscTimeTag.set_value p t v)) in *.
  set (f := OscTimeTag.fraction p (OscTimeTag.set_value p t v)) in *.
  destruct (host_little_endian p); rewrite E; split.
  - rewrite Z.div_add_l by lia. rewrite Z.div_small by lia. lia.
  - rewrite Z.add_comm, Z.mod_add by lia. symmetry. apply Z.mod_small. lia.
  - rewrite Z.add_comm, Z.mod_add by lia. symmetry. apply Z.mod_small. lia.
  - rewrite Z.div_add_l by lia. rewrite Z.div_small by lia. lia.
Qed.

End AssignedValue.

Lemma dwordStruct_of_assigned_value_witness :
  8 <= length sample64 /\ (0 <= 2 ^ 32 + 5 < 2 ^ 64)%Z /\
  OscTimeTag.seconds x86_64 (OscTimeTag.set_value x86_64 sample64 (2 ^ 32 + 5))
  = ((2 ^ 32 + 5) / 2 ^ 32)%Z.
Proof.
  assert (L : 8 <= length sample64) by (simpl; apply le_n).
  assert (V : (0 <= 2 ^ 32 + 5 < 2 ^ 64)%Z) by (split; [discriminate | reflexivity]).
  split; [exact L|]. split; [exact V|].
  exact (proj1 (dwordStruct_of_assigned_value x86_64 sample64 (2 ^ 32 + 5) L V)).
Defined.

(* ===================================================================== *)
(** ** When [OscArgument64] is 8 bytes wide *)
(* ===================================================================== *)

(** X9: [OscArgument64] is exactly 8 bytes wide if and only if [Double64]
    is at most 8 bytes wide; it is never narrower than 8 bytes, nor than its
    [OscTimeTag] or [Double64] member. *)
Theorem OscArgument64_is_8_bytes_iff_Double64_fits (p : Platform) :
  (sizeof p (OscArgument64_decl p) = 8 <-> sizeof p (Double64 p) <= 8) /\
  8 <= sizeof p (OscArgument64_decl p) /\
  sizeof p (OscTimeTag_decl p) <= sizeof p (OscArgument64_decl p) /\
  sizeof p (Double64 p) <= sizeof p (OscArgument64_decl p).
Proof.
  rewrite sizeof_OscArgument64, sizeof_OscTimeTag.
  split; [split; intros H; lia|]. split; [lia|]. split; lia.
Qed.

(** X10: where [Double64] is only 4 bytes wide, the [double64] member of an
    [OscArgument64] does not lie on the same bytes of the byte view on every
    platform: it is made of [byteStruct.byte3 .. byte0] on a configured
    little-endian platform and of [byteStruct.byte7 .. byte4] on a configured
    big-endian one. *)
Theorem narrow_double64_from_byteStruct (p : Platform) (u : object) :
  configured p -> sizeof p (Double64 p) = 4 -> 8 <= length u ->
  OscArgument64.double64 p u
  = be_value (map (fun f => OscArgument64.byteStruct p f u)
                  (if host_little_endian p
                   then ["byte3"; "byte2"; "byte1"; "byte0"]
                   else ["byte7"; "byte6"; "byte5"; "byte4"])).
Proof.
  intros Hp Hd Hu.
  destruct u as [|u0 [|u1 [|u2 [|u3 [|u4 [|u5 [|u6 [|u7 u]]]]]]]];
    simpl in Hu; try lia.
  unfold OscArgument64.double64, load_uint. rewrite Hd.
  rewrite host_combine_be_value. clear Hd.
  revert Hp. by_platform p; intros _; reflexivity.
Qed.

Lemma narrow_double64_from_byteStruct_witness :
  configured avr /\ sizeof avr (Double64 avr) = 4 /\ 8 <= length sample64 /\
  OscArgument64.double64 avr sample64
  = be_value (map (fun f => OscArgument64.byteStruct avr f sample64)
                  ["byte3"; "byte2"; "byte1"; "byte0"]).
Proof.
  assert (C : configured avr) by reflexivity.
  assert (D : sizeof avr (Double64 avr) = 4) by reflexivity.
  assert (L : 8 <= length sample64) by (simpl; apply le_n).
  split; [exact C|]. split; [exact D|]. split; [exact L|].
  exact (narrow_double64_from_byteStruct avr sample64 C D L).
Defined.
